(** * graficos-comparacao: the CSV importers and the plot driver of [main.py]

    [main.py] reads two kinds of CSV exports with [pandas.read_csv], renames
    the columns to [tempo] / [tensao], and plots the tables next to an
    analytical curve.  This development embeds the three functions of the
    script ([importar_csv_osciloscopio], [importar_csv_simulador], [main]) in
    a small state-and-exception monad over a store of DataFrame objects, the
    standard output and the figure, together with a model of the pandas and
    matplotlib calls they make.

    Conventions of the model.
    - A file is its sequence of bytes; a Python [str] is a Rocq [string].
    - float64 cells carry the exact decimal they denote (a rational);
      binary rounding is not modelled.  The analytical curves are real-valued.
    - [read_csv] covers unquoted fields; cells are classified as integers,
      decimal numbers, missing values or text. *)

From Stdlib Require Import ZArith QArith String Ascii List Lia Reals Lra.
From Stdlib Require Import Qround Qreals DecimalString DecimalNat.
From stdpp Require Import base list strings gmap.

Local Open Scope string_scope.
Local Open Scope list_scope.

(** ** Characters and Python string rendering *)

Definition LF : ascii := "010"%char.
Definition CR : ascii := "013"%char.
Definition TAB : ascii := "009"%char.
Definition ASPAS : ascii := "034"%char.
Definition APOSTROFO : ascii := "039"%char.
Definition BARRA : ascii := "092"%char.

Fixpoint caracteres (s : string) : list ascii :=
  match s with
  | EmptyString => []
  | String c r => c :: caracteres r
  end.

Fixpoint texto (l : list ascii) : string :=
  match l with
  | [] => EmptyString
  | c :: r => String c (texto r)
  end.

(** [str(n)] for a non-negative Python int. *)
Definition str_nat (n : nat) : string := NilEmpty.string_of_uint (Nat.to_uint n).

Definition hex_digito (n : N) : ascii :=
  match String.get (N.to_nat n) "0123456789abcdef" with
  | Some c => c
  | None => "0"%char
  end.

(** [repr] of one character inside a literal delimited by [q]. *)
Definition repr_char (q c : ascii) : string :=
  let n := N_of_ascii c in
  if Ascii.eqb c BARRA then String BARRA (String BARRA EmptyString)
  else if Ascii.eqb c q then String BARRA (String q EmptyString)
  else if Ascii.eqb c LF then String BARRA "n"
  else if Ascii.eqb c CR then String BARRA "r"
  else if Ascii.eqb c TAB then String BARRA "t"
  else if ((n <? 32) || (n =? 127))%N
       then String BARRA (String "x" (String (hex_digito (n / 16)) (String (hex_digito (n mod 16)) EmptyString)))
  else String c EmptyString.

Fixpoint repr_corpo (q : ascii) (s : string) : string :=
  match s with
  | EmptyString => EmptyString
  | String c r => repr_char q c +:+ repr_corpo q r
  end.

(** Python's [repr] of a [str]: single quotes, unless the text holds a single
    quote and no double quote. *)
Definition repr (s : string) : string :=
  let cs := caracteres s in
  let q := if bool_decide (APOSTROFO ∈ cs) && negb (bool_decide (ASPAS ∈ cs))
           then ASPAS else APOSTROFO in
  String q (repr_corpo q s +:+ String q EmptyString).

(** ** Exceptions *)

Inductive excecao : Type :=
| FileNotFoundError (arquivo : string)
| IsADirectoryError (arquivo : string)
| PermissionError (arquivo : string)
| EmptyDataError
| ParserError (esperados linha vistos : nat)
| ValueError (msg : string)
| KeyError (chave : string).

(** [str(e)], as interpolated by the f-string of the handlers. *)
Definition str_excecao (e : excecao) : string :=
  match e with
  | FileNotFoundError a => "[Errno 2] No such file or directory: " +:+ repr a
  | IsADirectoryError a => "[Errno 21] Is a directory: " +:+ repr a
  | PermissionError a => "[Errno 13] Permission denied: " +:+ repr a
  | EmptyDataError => "No columns to parse from file"
  | ParserError n l v =>
      "Error tokenizing data. C error: Expected " +:+ str_nat n +:+ " fields in line "
        +:+ str_nat l +:+ ", saw " +:+ str_nat v +:+ String LF EmptyString
  | ValueError m => m
  | KeyError k => repr k
  end.

(** ** Tables *)

Inductive valor : Type :=
| VInt (z : Z)
| VFloat (q : Q)
| VStr (s : string)
| NaN.

Inductive dtype : Type := Int64 | Float64 | Object.

(** A DataFrame is column-oriented: the labels, the row index and one list of
    cells per column. *)
Record DataFrame : Type := mkDataFrame {
  columns : list string;
  index : list nat;
  dados : list (list valor)
}.

(** [pd.DataFrame()] *)
Definition DataFrame_vazio : DataFrame := mkDataFrame [] [] [].

Definition n_linhas (d : DataFrame) : nat := length (index d).
Definition n_colunas (d : DataFrame) : nat := length (columns d).
Definition shape (d : DataFrame) : nat * nat := (n_linhas d, n_colunas d).

(** The rows of a table, top to bottom. *)
Definition linha (d : DataFrame) (i : nat) : list valor :=
  (fun col => default NaN (col !! i)) <$> dados d.
Definition linhas (d : DataFrame) : list (list valor) :=
  linha d <$> seq 0 (n_linhas d).

(** [l[a:b]] for [0 <= a <= b]. *)
Definition fatia {A} (a b : nat) (l : list A) : list A := take (b - a) (drop a l).

Definition colunas_rotuladas (d : DataFrame) : list (string * list valor) :=
  zip (columns d) (dados d).

Definition de_colunas (idx : list nat) (cs : list (string * list valor)) : DataFrame :=
  mkDataFrame (cs.*1) idx (cs.*2).

(** [df[chave]] with a list-like key: every label must exist; the result is a
    new table with, for each label of the key, the columns carrying it. *)
Definition getitem (d : DataFrame) (chave : list string) : excecao + DataFrame :=
  match List.find (fun r => negb (bool_decide (r ∈ columns d))) chave with
  | Some r => inl (KeyError r)
  | None =>
      inr (de_colunas (index d)
             (chave ≫= fun r => filter (fun p => p.1 = r) (colunas_rotuladas d)))
  end.

(** [df.drop(columns=rotulos)]: every label must exist; a new table without
    the columns carrying one of the labels. *)
Definition drop_columns (d : DataFrame) (rotulos : list string) : excecao + DataFrame :=
  match List.find (fun r => negb (bool_decide (r ∈ columns d))) rotulos with
  | Some r => inl (KeyError r)
  | None =>
      inr (de_colunas (index d) (filter (fun p => p.1 ∉ rotulos) (colunas_rotuladas d)))
  end.

(** [df.columns = nomes] *)
Definition set_columns (d : DataFrame) (nomes : list string) : excecao + DataFrame :=
  if bool_decide (length nomes = n_colunas d)
  then inr (mkDataFrame nomes (index d) (dados d))
  else inl (ValueError ("Length mismatch: Expected axis has " +:+ str_nat (n_colunas d)
                          +:+ " elements, new values have " +:+ str_nat (length nomes)
                          +:+ " elements")).

Definition eh_nan (v : valor) : bool :=
  match v with NaN => true | _ => false end.

Definition linha_completa (d : DataFrame) (i : nat) : bool :=
  forallb (fun col => negb (eh_nan (default NaN (col !! i)))) (dados d).

Definition filtra_mascara {A} (m : list bool) (l : list A) : list A :=
  (filter (fun p => p.1 = true) (zip m l)).*2.

(** [df.dropna()]: the rows without a missing value, with their index labels. *)
Definition dropna (d : DataFrame) : DataFrame :=
  let m := linha_completa d <$> seq 0 (n_linhas d) in
  mkDataFrame (columns d) (filtra_mascara m (index d)) (filtra_mascara m <$> dados d).

(** ** Reading numbers *)

(** C [isspace]: blank, or one of the controls 9 to 13. *)
Definition eh_espaco (c : ascii) : bool :=
  let n := N_of_ascii c in ((n =? 32) || ((9 <=? n) && (n <=? 13)))%N.

Definition digito (c : ascii) : option N :=
  let n := N_of_ascii c in
  if ((48 <=? n) && (n <=? 57))%N then Some (n - 48)%N else None.

Fixpoint apara_inicio (s : string) : string :=
  match s with
  | String c r => if eh_espaco c then apara_inicio r else s
  | EmptyString => EmptyString
  end.

Fixpoint apara_fim (s : string) : string :=
  match s with
  | EmptyString => EmptyString
  | String c r =>
      match apara_fim r with
      | EmptyString => if eh_espaco c then EmptyString else String c EmptyString
      | r' => String c r'
      end
  end.

Definition apara (s : string) : string := apara_fim (apara_inicio s).

(** An optional sign; [true] for a minus. *)
Definition le_sinal (s : string) : bool * string :=
  match s with
  | String "-" r => (true, r)
  | String "+" r => (false, r)
  | _ => (false, s)
  end.

(** The leading decimal digits of [s], and what follows them. *)
Fixpoint digitos (s : string) : list N * string :=
  match s with
  | EmptyString => ([], EmptyString)
  | String c r =>
      match digito c with
      | Some d => let '(ds, resto) := digitos r in (d :: ds, resto)
      | None => ([], s)
      end
  end.

Definition numero (ds : list N) : Z :=
  fold_left (fun a d => 10 * a + Z.of_N d)%Z ds 0%Z.

Definition com_sinal (neg : bool) (z : Z) : Z := if neg then (- z)%Z else z.

(** The rational [z * 10^e]. *)
Definition decimal_Q (z e : Z) : Q :=
  if (0 <=? e)%Z then (z * 10 ^ e)%Z # 1 else z # Z.to_pos (10 ^ (- e)).

(** An integer cell: blanks, sign, digits, blanks. *)
Definition le_int (s : string) : option Z :=
  let '(neg, r) := le_sinal (apara s) in
  match digitos r with
  | ((_ :: _) as ds, EmptyString) => Some (com_sinal neg (numero ds))
  | _ => None
  end.

(** The exponent part: nothing, or [e]/[E], a sign and digits. *)
Definition le_expoente (s : string) : option Z :=
  match s with
  | EmptyString => Some 0%Z
  | String c r =>
      if Ascii.eqb c "e" || Ascii.eqb c "E"
      then let '(neg, r') := le_sinal r in
           match digitos r' with
           | ((_ :: _) as ds, EmptyString) => Some (com_sinal neg (numero ds))
           | _ => None
           end
      else None
  end.

(** A decimal cell with [decimal] as the decimal mark: blanks, sign, digits
    with an optional fraction, optional exponent, blanks. *)
Definition le_float (decimal : ascii) (s : string) : option Q :=
  let '(neg, r) := le_sinal (apara s) in
  let '(inteira, r1) := digitos r in
  let '(fracao, r2) :=
    match r1 with
    | String c r' => if Ascii.eqb c decimal then digitos r' else ([], r1)
    | EmptyString => ([], EmptyString)
    end in
  match inteira ++ fracao, le_expoente r2 with
  | (_ :: _) as ds, Some e =>
      Some (decimal_Q (com_sinal neg (numero ds)) (e - Z.of_nat (length fracao)))
  | _, _ => None
  end.

(** ** Column types *)

(** The strings [read_csv] takes for a missing value by default. *)
Definition na_values : list string :=
  [ ""; "#N/A"; "#N/A N/A"; "#NA"; "-1.#IND"; "-1.#QNAN"; "-NaN"; "-nan";
    "1.#IND"; "1.#QNAN"; "<NA>"; "N/A"; "NA"; "NULL"; "NaN"; "None"; "n/a";
    "nan"; "null" ].

Definition eh_na (s : string) : bool := bool_decide (s ∈ na_values).

Definition cabe_int64 (z : Z) : bool := ((- 2 ^ 63 <=? z) && (z <? 2 ^ 63))%Z.
Definition cabe_uint64 (z : Z) : bool := ((0 <=? z) && (z <? 2 ^ 64))%Z.

Definition todos_int (cels : list string) : bool :=
  forallb (fun c => bool_decide (is_Some (le_int c))) cels
  && (forallb (fun c => cabe_int64 (default 0%Z (le_int c))) cels
      || forallb (fun c => cabe_uint64 (default 0%Z (le_int c))) cels).

Definition todos_float (decimal : ascii) (cels : list string) : bool :=
  forallb (fun c => eh_na c || bool_decide (is_Some (le_float decimal c))) cels.

(** The type [read_csv] settles on for a column: integers when every cell is
    one, else decimals when every cell is a number or missing, else text. *)
Definition infere (decimal : ascii) (cels : list string) : dtype :=
  match cels with
  | [] => Object
  | _ => if todos_int cels then Int64
         else if todos_float decimal cels then Float64
         else Object
  end.

Definition converte_celula (decimal : ascii) (t : dtype) (c : string) : valor :=
  match t with
  | Int64 => match le_int c with Some z => VInt z | None => NaN end
  | Float64 =>
      if eh_na c then NaN
      else match le_float decimal c with Some q => VFloat q | None => NaN end
  | Object => if eh_na c then NaN else VStr c
  end.

Definition converte_coluna (decimal : ascii) (cels : list string) : list valor :=
  converte_celula decimal (infere decimal cels) <$> cels.

(** ** Tokenizing *)

(** The lines of a text; [\n], [\r] and [\r\n] end a line. *)
Fixpoint quebra_linhas_aux (s : string) (atual : list ascii) : list string :=
  match s with
  | EmptyString => [texto (rev atual)]
  | String c r =>
      if Ascii.eqb c LF then texto (rev atual) :: quebra_linhas_aux r []
      else if Ascii.eqb c CR then
        match r with
        | String c' r' =>
            if Ascii.eqb c' LF then texto (rev atual) :: quebra_linhas_aux r' []
            else texto (rev atual) :: quebra_linhas_aux r []
        | EmptyString => texto (rev atual) :: quebra_linhas_aux r []
        end
      else quebra_linhas_aux r (c :: atual)
  end.

Definition quebra_linhas (s : string) : list string := quebra_linhas_aux s [].

(** The fields of a line; a line always has at least one field. *)
Fixpoint separa_aux (sep : ascii) (s : string) (atual : list ascii) : list string :=
  match s with
  | EmptyString => [texto (rev atual)]
  | String c r =>
      if Ascii.eqb c sep then texto (rev atual) :: separa_aux sep r []
      else separa_aux sep r (c :: atual)
  end.

Definition separa (sep : ascii) (s : string) : list string := separa_aux sep s [].

(** A line of blanks and tabs only (the separator apart) is skipped. *)
Definition linha_em_branco (sep : ascii) (l : string) : bool :=
  forallb (fun c => (Ascii.eqb c " " || Ascii.eqb c TAB) && negb (Ascii.eqb c sep))
          (caracteres l).

(** The records of a file: for each line that is not skipped, its number in
    the file (from 1) and its fields. *)
Definition tokeniza (sep : ascii) (conteudo : string) : list (nat * list string) :=
  let ls := quebra_linhas conteudo in
  (fun p => (p.1, separa sep p.2)) <$>
      (filter (fun p => linha_em_branco sep p.2 = false) (zip (seq 1 (length ls)) ls)).

(** ** Header labels *)

Definition candidatos (nome : string) (k : nat) : list string :=
  (fun i => nome +:+ "." +:+ str_nat i) <$> seq 1 k.

(** A label for [nome] that none of [usados] carries: [nome] itself when it
    is free, else the first free one among [nome.1], [nome.2], ... *)
Definition rotulo_livre (usados : list string) (nome : string) : string :=
  if bool_decide (nome ∈ usados)
  then match List.find (fun c => negb (bool_decide (c ∈ usados)))
                       (candidatos nome (S (length usados))) with
       | Some c => c
       | None => nome
       end
  else nome.

Fixpoint dedup_names_aux (usados : list string) (nomes : list string) : list string :=
  match nomes with
  | [] => []
  | n :: r => let n' := rotulo_livre usados n in n' :: dedup_names_aux (n' :: usados) r
  end.

(** Repeated header names are renamed so that the labels of a table that was
    read from a file are pairwise distinct. *)
Definition dedup_names (nomes : list string) : list string := dedup_names_aux [] nomes.

(** A header field that is empty is named after its position. *)
Definition nomeia (nomes : list string) : list string :=
  imap (fun i n => if String.eqb n "" then "Unnamed: " +:+ str_nat i else n) nomes.

(** ** [read_csv] on the text of a file *)

Definition campo (j : nat) (registro : list string) : string :=
  default "" (registro !! j).

(** The table of a text: the first record is the header; a record longer
    than the header is an error, a shorter one is completed with missing
    values; every column is converted on its own. *)
Definition analisa_csv (sep decimal : ascii) (conteudo : string) : excecao + DataFrame :=
  match tokeniza sep conteudo with
  | [] => inl EmptyDataError
  | cabecalho :: registros =>
      let n := length cabecalho.2 in
      match List.find (fun p => (n <? length p.2)%nat) registros with
      | Some p => inl (ParserError n p.1 (length p.2))
      | None =>
          inr (mkDataFrame
                 (dedup_names (nomeia cabecalho.2))
                 (seq 0 (length registros))
                 ((fun j => converte_coluna decimal ((fun p => campo j p.2) <$> registros))
                    <$> seq 0 n))
      end
  end.

(** ** The file system *)

Inductive entrada : Type :=
| Arquivo (conteudo : string)
| Diretorio
| SemPermissao.

(** The paths that exist; a path that is not a key names nothing. *)
Abbreviation sistema_arquivos := (gmap string entrada).

Definition abre (fs : sistema_arquivos) (arquivo : string) : excecao + string :=
  match fs !! arquivo with
  | Some (Arquivo c) => inr c
  | Some Diretorio => inl (IsADirectoryError arquivo)
  | Some SemPermissao => inl (PermissionError arquivo)
  | None => inl (FileNotFoundError arquivo)
  end.

Definition le_csv (fs : sistema_arquivos) (arquivo : string) (sep decimal : ascii)
  : excecao + DataFrame :=
  match abre fs arquivo with
  | inl e => inl e
  | inr c => analisa_csv sep decimal c
  end.

(** ** The interpreter state: objects, standard output, figure *)

(** What the matplotlib calls of the driver leave on the figure, in order.
    A series drawn from a table carries cells; the analytical one, reals. *)
Inductive evento : Type :=
| Subplots (n_linhas n_colunas : nat) (figsize : nat * nat)
| PlotTabela (eixo : nat) (rotulo estilo xlabel ylabel : string) (x y : list valor)
| PlotCurva (eixo : nat) (rotulo estilo : string) (x y : list R)
| SetXlim (eixo : nat) (esquerda direita : R)
| SetTitle (eixo : nat) (titulo : string)
| Legend (eixo : nat)
| PltShow.

(** A variable holds a reference to a DataFrame object of the store. *)
Definition ref : Type := nat.

Record estado : Type := mkEstado {
  objetos : list DataFrame;
  stdout : string;
  figura : list evento
}.

Inductive resultado (A : Type) : Type :=
| Retorna (a : A)
| Levanta (e : excecao).
Arguments Retorna {A} a.
Arguments Levanta {A} e.

Definition M (A : Type) : Type := estado -> resultado A * estado.

#[global] Instance M_ret : MRet M := fun A a st => (Retorna a, st).

#[global] Instance M_bind : MBind M := fun A B f m st =>
  match m st with
  | (Retorna a, st') => f a st'
  | (Levanta e, st') => (Levanta e, st')
  end.

Definition levanta {A} (e : excecao) : M A := fun st => (Levanta e, st).

(** [try: m except Exception as e: h e]; every exception of the model is an
    [Exception]. *)
Definition tenta {A} (m : M A) (h : excecao -> M A) : M A := fun st =>
  match m st with
  | (Retorna a, st') => (Retorna a, st')
  | (Levanta e, st') => h e st'
  end.

Definition promove {A} (r : excecao + A) : M A :=
  match r with
  | inl e => levanta e
  | inr a => mret a
  end.

(** A new object; its reference is its position in the store. *)
Definition novo (d : DataFrame) : M ref := fun st =>
  (Retorna (length (objetos st)), mkEstado (objetos st ++ [d]) (stdout st) (figura st)).

(** References come from [novo] only, so the default is never read. *)
Definition le (r : ref) : M DataFrame := fun st =>
  (Retorna (default DataFrame_vazio (objetos st !! r)), st).

Definition grava (r : ref) (d : DataFrame) : M unit := fun st =>
  (Retorna (), mkEstado (<[r := d]> (objetos st)) (stdout st) (figura st)).

Definition print (s : string) : M unit := fun st =>
  (Retorna (), mkEstado (objetos st) (stdout st +:+ s +:+ String LF EmptyString) (figura st)).


(** ** The pandas calls of the script *)

Definition pd_read_csv (fs : sistema_arquivos) (arquivo : string) (sep decimal : ascii)
  : M ref :=
  d ← promove (le_csv fs arquivo sep decimal); novo d.

Definition pd_DataFrame : M ref := novo DataFrame_vazio.

Definition df_columns (df : ref) : M (list string) :=
  d ← le df; mret (columns d).

(** [df[chave]] makes a new object. *)
Definition df_getitem (df : ref) (chave : list string) : M ref :=
  d ← le df; d' ← promove (getitem d chave); novo d'.

(** [df.drop(columns=rotulos)] makes a new object. *)
Definition df_drop (df : ref) (rotulos : list string) : M ref :=
  d ← le df; d' ← promove (drop_columns d rotulos); novo d'.

(** [df.columns = nomes] updates the object in place. *)
Definition df_set_columns (df : ref) (nomes : list string) : M unit :=
  d ← le df; d' ← promove (set_columns d nomes); grava df d'.

(** [df.dropna(inplace=True)] updates the object in place. *)
Definition df_dropna_inplace (df : ref) : M unit :=
  d ← le df; grava df (dropna d).



(** ** The importers *)

Definition importar_csv_osciloscopio (fs : sistema_arquivos) (arquivo : string) : M ref :=
  tenta
    (df ← pd_read_csv fs arquivo ";" ",";
     cols ← df_columns df;
     infos ← df_getitem df (fatia 0 2 cols);
     cols ← df_columns df;
     df ← df_drop df (fatia 0 3 cols);
     df_set_columns df ["tempo"; "tensao"];;
     df_dropna_inplace infos;;
     df_set_columns infos ["parametro"; "valor"];;
     mret df)
    (fun e =>
       print ("Erro ao importar o arquivo: " +:+ str_excecao e);;
       pd_DataFrame).

Definition importar_csv_simulador (fs : sistema_arquivos) (arquivo : string) : M ref :=
  tenta
    (df ← pd_read_csv fs arquivo TAB ",";
     df_set_columns df ["tempo"; "tensao"];;
     mret df)
    (fun e =>
       print ("Erro ao importar o arquivo: " +:+ str_excecao e);;
       pd_DataFrame).

(** The oscilloscope importer without the lines that build [infos]
    (lines 18, 21 and 22 of [main.py]). *)
Definition importar_csv_osciloscopio_sem_infos (fs : sistema_arquivos) (arquivo : string)
  : M ref :=
  tenta
    (df ← pd_read_csv fs arquivo ";" ",";
     cols ← df_columns df;
     df ← df_drop df (fatia 0 3 cols);
     df_set_columns df ["tempo"; "tensao"];;
     mret df)
    (fun e =>
       print ("Erro ao importar o arquivo: " +:+ str_excecao e);;
       pd_DataFrame).

Definition estado_inicial : estado := mkEstado [] "" [].

(** What a call leaves behind: the table its result refers to, and the text
    it wrote. *)
Definition tabela_devolvida (m : M ref) (st : estado) : option DataFrame :=
  match m st with
  | (Retorna r, st') => objetos st' !! r
  | (Levanta _, _) => None
  end.

Definition saida (m : M ref) (st : estado) : string := stdout (m st).2.

(** ** The driver *)

(** [np.arange(inicio, fim, passo)]: the points [inicio + k * passo] for
    [k] below the ceiling of [(fim - inicio) / passo]. *)
Definition np_arange (inicio fim passo : Q) : list R :=
  (fun k => Q2R (inicio + inject_Z (Z.of_nat k) * passo))
    <$> seq 0 (Z.to_nat (Qceiling ((fim - inicio) / passo))).

(** The analytical curves, applied by numpy to every point of the grid. *)
Definition tensao_v1 (tempo : R) : R :=
  (1 - 0.993 * exp (- tempo * 4.51) - 0.0063 * exp (- tempo * 10.08))%R.

Definition tensao_v2 (tempo : R) : R :=
  (0.8159 * (exp (- tempo * 4.51) - exp (- tempo * 10.08)))%R.


(** * Definitions for the statements

    Auxiliary notions in which the properties below are stated: what a
    fallback leaves, the table of a text, well-formed files, the two
    importers as one family, and the example files. *)

(** What the handler of both importers leaves: the diagnostic on the
    standard output and a new empty table after the objects [extra] that the
    body had made. *)
Definition falha (e : excecao) (extra : list DataFrame) (st : estado) : resultado ref * estado :=
  (Retorna (length (objetos st) + length extra),
   mkEstado (objetos st ++ extra ++ [DataFrame_vazio])
            (stdout st +:+ ("Erro ao importar o arquivo: " +:+ str_excecao e)
               +:+ String LF EmptyString)
            (figura st)).

(** The header and the data records of a text. *)
Definition cabecalho (sep : ascii) (conteudo : string) : list string :=
  match tokeniza sep conteudo with
  | [] => []
  | c :: _ => c.2
  end.

Definition registros (sep : ascii) (conteudo : string) : list (list string) :=
  match tokeniza sep conteudo with
  | [] => []
  | _ :: rs => rs.*2
  end.

(** The table that [read_csv] builds when no record is too long. *)
Definition tabela_lida (sep decimal : ascii) (conteudo : string) : DataFrame :=
  mkDataFrame
    (dedup_names (nomeia (cabecalho sep conteudo)))
    (seq 0 (length (registros sep conteudo)))
    ((fun j => converte_coluna decimal (campo j <$> registros sep conteudo))
       <$> seq 0 (length (cabecalho sep conteudo))).

(** Distinct labels, one list of cells per label. *)
Definition regular (d : DataFrame) : Prop :=
  NoDup (columns d) /\ length (dados d) = length (columns d).

(** The message of the [ValueError] that [df.columns = nomes] raises. *)
Definition msg_tamanho (tem pedidos : nat) : string :=
  "Length mismatch: Expected axis has " +:+ str_nat tem
    +:+ " elements, new values have " +:+ str_nat pedidos +:+ " elements".

(** The objects that the oscilloscope importer derives from the table [d0]
    it read: the two leading columns, and the table without the three
    leading columns. *)
Definition infos_de (d0 : DataFrame) : DataFrame :=
  mkDataFrame (take 2 (columns d0)) (index d0) (take 2 (dados d0)).

Definition sem_tres (d0 : DataFrame) : DataFrame :=
  mkDataFrame (drop 3 (columns d0)) (index d0) (drop 3 (dados d0)).

(** A text is well formed with [n] columns when it has a header of [n]
    fields and every data record has [n] fields as well. *)
Definition bem_formado (sep : ascii) (n : nat) (conteudo : string) : bool :=
  match tokeniza sep conteudo with
  | [] => false
  | c :: rs => (length c.2 =? n)%nat && forallb (fun p => (length p.2 =? n)%nat) rs
  end.


(** The four-column file of the scenario, and the same rows with one more
    leading column. *)
Definition arquivo_quatro_colunas : string :=
  "a;b;t;v" +:+ String LF ("1,0;x,0;0,0;0,5" +:+ String LF EmptyString).

Definition arquivo_cinco_colunas : string :=
  "a;b;c;t;v" +:+ String LF ("1,0;x,0;y;0,0;0,5" +:+ String LF EmptyString).

(** One row, with time 0.0 and voltage 0.5. *)
Definition uma_linha_0_05 (d : DataFrame) : Prop :=
  exists t v, linhas d = [[VFloat t; VFloat v]] /\ (t == 0)%Q /\ (v == 5 # 10)%Q.


(** A file system with both files of the scenario. *)
Definition fs_cenario : sistema_arquivos :=
  {[ "osc4.csv" := Arquivo arquivo_quatro_colunas;
     "osc5.csv" := Arquivo arquivo_cinco_colunas ]}.

(** Both importers, their separator, and the position in the file of the
    first column they keep. *)
Inductive importador : Type := Osciloscopio | Simulador.

Definition importa (imp : importador) : sistema_arquivos -> string -> M ref :=
  match imp with
  | Osciloscopio => importar_csv_osciloscopio
  | Simulador => importar_csv_simulador
  end.

Definition separador (imp : importador) : ascii :=
  match imp with
  | Osciloscopio => ";"%char
  | Simulador => TAB
  end.





(** A simulator file of two columns and one row, and a file system with it. *)
Definition arquivo_simulador : string :=
  "t" +:+ String TAB ("v" +:+ String LF ("0,0" +:+ String TAB ("0,5" +:+ String LF EmptyString))).

Definition fs_simulador : sistema_arquivos := {[ "V1.txt" := Arquivo arquivo_simulador ]}.

(** Whether a path names an existing file that can be read. *)
Definition legivel (fs : sistema_arquivos) (arquivo : string) : bool :=
  match fs !! arquivo with
  | Some (Arquivo _) => true
  | _ => false
  end.











(** The text that the handler of an importer prints for the exception [e]. *)
Definition diagnostico (e : excecao) : string :=
  ("Erro ao importar o arquivo: " +:+ str_excecao e) +:+ String LF EmptyString.






(** * Properties *)

(** ** The store *)

Lemma lookup_apos {A} (l x : list A) (k : nat) : (l ++ x) !! (length l + k) = x !! k.
Proof. rewrite lookup_app_r by lia. f_equal. lia. Qed.

Lemma lookup_apos0 {A} (l x : list A) : (l ++ x) !! length l = x !! 0.
Proof. rewrite <- (lookup_apos l x 0). f_equal. lia. Qed.

Lemma insert_apos {A} (l x : list A) (k : nat) (a : A) :
  <[length l + k := a]> (l ++ x) = l ++ <[k := a]> x.
Proof. apply insert_app_r. Qed.

Lemma insert_apos0 {A} (l x : list A) (a : A) :
  <[length l := a]> (l ++ x) = l ++ <[0 := a]> x.
Proof. rewrite <- (insert_apos l x 0). f_equal. lia. Qed.

Ltac passo :=
  repeat progress
    (rewrite <- ?app_assoc, ?length_app, ?lookup_apos, ?lookup_apos0,
       ?insert_apos, ?insert_apos0; simpl).

(** The run of the oscilloscope importer, step by step. *)
Lemma importar_csv_osciloscopio_passos fs arquivo st :
  importar_csv_osciloscopio fs arquivo st =
  match le_csv fs arquivo ";" "," with
  | inl e => falha e [] st
  | inr d0 =>
    match getitem d0 (fatia 0 2 (columns d0)) with
    | inl e => falha e [d0] st
    | inr i0 =>
      match drop_columns d0 (fatia 0 3 (columns d0)) with
      | inl e => falha e [d0; i0] st
      | inr d1 =>
        match set_columns d1 ["tempo"; "tensao"] with
        | inl e => falha e [d0; i0; d1] st
        | inr d2 =>
          match set_columns (dropna i0) ["parametro"; "valor"] with
          | inl e => falha e [d0; dropna i0; d2] st
          | inr i2 =>
              (Retorna (length (objetos st) + 2),
               mkEstado (objetos st ++ [d0; i2; d2]) (stdout st) (figura st))
          end
        end
      end
    end
  end.
Proof.
  destruct st as [objs out fig].
  unfold importar_csv_osciloscopio, tenta, pd_read_csv, pd_DataFrame, falha.
  unfold df_columns, df_getitem, df_drop, df_set_columns, df_dropna_inplace,
    le, grava, novo, promove, levanta, print, mbind, M_bind, mret, M_ret.
  simpl.
  destruct (le_csv fs arquivo ";" ",") as [e|d0]; passo.
  { rewrite Nat.add_0_r. reflexivity. }
  destruct (getitem d0 _) as [e|i0]; passo; [reflexivity|].
  destruct (drop_columns d0 _) as [e|d1]; passo; [reflexivity|].
  destruct (set_columns d1 _) as [e|d2]; passo; [reflexivity|].
  destruct (set_columns (dropna i0) _) as [e|i2]; passo; reflexivity.
Qed.

(** The run of the simulator importer. *)
Lemma importar_csv_simulador_passos fs arquivo st :
  importar_csv_simulador fs arquivo st =
  match le_csv fs arquivo TAB "," with
  | inl e => falha e [] st
  | inr d0 =>
    match set_columns d0 ["tempo"; "tensao"] with
    | inl e => falha e [d0] st
    | inr d1 =>
        (Retorna (length (objetos st)),
         mkEstado (objetos st ++ [d1]) (stdout st) (figura st))
    end
  end.
Proof.
  destruct st as [objs out fig].
  unfold importar_csv_simulador, tenta, pd_read_csv, pd_DataFrame, falha.
  unfold df_set_columns, le, grava, novo, promove, levanta, print,
    mbind, M_bind, mret, M_ret.
  simpl.
  destruct (le_csv fs arquivo TAB ",") as [e|d0]; passo.
  { rewrite Nat.add_0_r. reflexivity. }
  destruct (set_columns d0 _) as [e|d1]; passo; reflexivity.
Qed.

(** The run of the oscilloscope importer without [infos]. *)
Lemma importar_csv_osciloscopio_sem_infos_passos fs arquivo st :
  importar_csv_osciloscopio_sem_infos fs arquivo st =
  match le_csv fs arquivo ";" "," with
  | inl e => falha e [] st
  | inr d0 =>
    match drop_columns d0 (fatia 0 3 (columns d0)) with
    | inl e => falha e [d0] st
    | inr d1 =>
      match set_columns d1 ["tempo"; "tensao"] with
      | inl e => falha e [d0; d1] st
      | inr d2 =>
          (Retorna (length (objetos st) + 1),
           mkEstado (objetos st ++ [d0; d2]) (stdout st) (figura st))
      end
    end
  end.
Proof.
  destruct st as [objs out fig].
  unfold importar_csv_osciloscopio_sem_infos, tenta, pd_read_csv, pd_DataFrame, falha.
  unfold df_columns, df_drop, df_set_columns, le, grava, novo, promove, levanta, print,
    mbind, M_bind, mret, M_ret.
  simpl.
  destruct (le_csv fs arquivo ";" ",") as [e|d0]; passo.
  { rewrite Nat.add_0_r. reflexivity. }
  destruct (drop_columns d0 _) as [e|d1]; passo; [reflexivity|].
  destruct (set_columns d1 _) as [e|d2]; passo; reflexivity.
Qed.

(** ** Labels of a table that was read *)

Lemma str_nat_inj n m : str_nat n = str_nat m -> n = m.
Proof.
  unfold str_nat. intros H.
  apply (f_equal NilEmpty.uint_of_string) in H.
  rewrite !NilEmpty.usu in H. injection H as H.
  apply (f_equal Nat.of_uint) in H.
  now rewrite !Unsigned.of_to in H.
Qed.

Lemma append_inj_r (s a b : string) : s +:+ a = s +:+ b -> a = b.
Proof. induction s as [|c s IH]; simpl; [done|]. intros [= H]. auto. Qed.

Lemma candidatos_NoDup nome k : NoDup (candidatos nome k).
Proof.
  unfold candidatos. apply NoDup_fmap_2; [|apply NoDup_seq].
  intros i j H. apply append_inj_r, append_inj_r in H. by apply str_nat_inj.
Qed.

Lemma find_nenhum {A} (f : A -> bool) (l : list A) :
  (forall x, x ∈ l -> f x = false) -> List.find f l = None.
Proof.
  induction l as [|a l IH]; simpl; [done|]. intros H.
  rewrite (H a) by left. apply IH. intros x Hx. apply H. by right.
Qed.

Lemma rotulo_livre_fresco usados nome : rotulo_livre usados nome ∉ usados.
Proof.
  unfold rotulo_livre. case_bool_decide as Hn; [|done].
  destruct (List.find _ _) as [c|] eqn:Hf.
  - apply List.find_some in Hf as [_ Hc].
    apply negb_true_iff, bool_decide_eq_false in Hc. done.
  - exfalso.
    assert (Hincl : candidatos nome (S (length usados)) ⊆+ usados).
    { apply NoDup_submseteq; [apply candidatos_NoDup|]. intros x Hx.
      apply list_elem_of_In in Hx.
      pose proof (List.find_none _ _ Hf x Hx) as Hb. simpl in Hb.
      by apply negb_false_iff, bool_decide_eq_true in Hb. }
    apply submseteq_length in Hincl.
    unfold candidatos in Hincl. rewrite length_fmap, length_seq in Hincl. lia.
Qed.

Lemma dedup_names_aux_spec nomes : forall usados,
  NoDup (dedup_names_aux usados nomes)
  /\ (forall x, x ∈ dedup_names_aux usados nomes -> x ∉ usados)
  /\ length (dedup_names_aux usados nomes) = length nomes.
Proof.
  induction nomes as [|n r IH]; intros usados; simpl.
  { split; [constructor|]. split; [|done]. intros x Hx. inversion Hx. }
  destruct (IH (rotulo_livre usados n :: usados)) as (Hnd & Hfr & Hlen).
  split; [|split].
  - constructor; [|done]. intros Hin. apply Hfr in Hin. apply Hin. left.
  - intros x Hx. apply elem_of_cons in Hx as [->|Hx].
    + apply rotulo_livre_fresco.
    + apply Hfr in Hx. intros Hu. apply Hx. by right.
  - by rewrite Hlen.
Qed.

Lemma dedup_names_NoDup nomes : NoDup (dedup_names nomes).
Proof. apply dedup_names_aux_spec. Qed.

Lemma dedup_names_length nomes : length (dedup_names nomes) = length nomes.
Proof. apply dedup_names_aux_spec. Qed.

(** Names that are already distinct are kept. *)
Lemma dedup_names_aux_id nomes : forall usados,
  NoDup nomes -> (forall x, x ∈ nomes -> x ∉ usados) ->
  dedup_names_aux usados nomes = nomes.
Proof.
  induction nomes as [|n r IH]; intros usados Hnd Hfr; simpl; [done|].
  apply NoDup_cons in Hnd as [Hn Hr].
  assert (Hl : rotulo_livre usados n = n).
  { unfold rotulo_livre. rewrite bool_decide_eq_false_2; [done|]. apply Hfr. left. }
  rewrite Hl. f_equal. apply IH; [done|].
  intros x Hx Hu. apply elem_of_cons in Hu as [->|Hu]; [done|].
  apply (Hfr x); [by right|done].
Qed.

(** ** Tables that were read *)

Lemma analisa_csv_inr sep decimal conteudo d :
  analisa_csv sep decimal conteudo = inr d ->
  tokeniza sep conteudo <> []
  /\ Forall (fun r => length r <= length (cabecalho sep conteudo)) (registros sep conteudo)
  /\ d = tabela_lida sep decimal conteudo.
Proof.
  unfold analisa_csv, tabela_lida, cabecalho, registros.
  destruct (tokeniza sep conteudo) as [|c rs]; [done|].
  destruct (List.find _ rs) as [p|] eqn:Hf; [done|].
  intros [= <-]. split; [done|]. split.
  - apply Forall_forall. intros r Hr.
    apply list_elem_of_fmap in Hr as (p & -> & Hp).
    apply list_elem_of_In in Hp.
    pose proof (List.find_none _ _ Hf p Hp) as Hb. simpl in Hb.
    apply Nat.ltb_ge in Hb. done.
  - rewrite length_fmap. f_equal. apply list_fmap_ext.
    intros _ j _. by rewrite <- list_fmap_compose.
Qed.

Lemma analisa_csv_retangular sep decimal conteudo :
  tokeniza sep conteudo <> [] ->
  Forall (fun r => length r <= length (cabecalho sep conteudo)) (registros sep conteudo) ->
  analisa_csv sep decimal conteudo = inr (tabela_lida sep decimal conteudo).
Proof.
  unfold analisa_csv, tabela_lida, cabecalho, registros.
  destruct (tokeniza sep conteudo) as [|c rs]; [done|]. intros _ Hall.
  rewrite find_nenhum.
  - rewrite length_fmap. do 2 f_equal. apply list_fmap_ext.
    intros _ j _. by rewrite <- list_fmap_compose.
  - intros p Hp. apply Nat.ltb_ge.
    rewrite Forall_forall in Hall. apply Hall. by apply list_elem_of_fmap_2.
Qed.

Lemma nomeia_length nomes : length (nomeia nomes) = length nomes.
Proof. unfold nomeia. apply length_imap. Qed.

Lemma tabela_lida_colunas sep decimal conteudo :
  n_colunas (tabela_lida sep decimal conteudo) = length (cabecalho sep conteudo).
Proof. unfold n_colunas; simpl. by rewrite dedup_names_length, nomeia_length. Qed.

Lemma tabela_lida_regular sep decimal conteudo : regular (tabela_lida sep decimal conteudo).
Proof.
  split; simpl; [apply dedup_names_NoDup|].
  by rewrite length_fmap, length_seq, dedup_names_length, nomeia_length.
Qed.

Lemma le_csv_regular fs arquivo sep decimal d :
  le_csv fs arquivo sep decimal = inr d -> regular d.
Proof.
  unfold le_csv. destruct (abre fs arquivo) as [e|c]; [done|].
  intros H. apply analisa_csv_inr in H as (_ & _ & ->). apply tabela_lida_regular.
Qed.

(** ** Selecting and dropping leading columns *)

Lemma filtra_rotulo_ausente (l : list (string * list valor)) r :
  r ∉ l.*1 -> filter (fun q => q.1 = r) l = [].
Proof.
  induction l as [|a l IH]; intros Hr; [done|].
  rewrite fmap_cons in Hr. apply not_elem_of_cons in Hr as [Hra Hr].
  rewrite filter_cons_False by (intros H; by apply Hra). auto.
Qed.

Lemma filtra_rotulo_unico (l : list (string * list valor)) p :
  NoDup (l.*1) -> p ∈ l -> filter (fun q => q.1 = p.1) l = [p].
Proof.
  induction l as [|a l IH]; intros Hnd Hp; [inversion Hp|].
  rewrite fmap_cons in Hnd. apply NoDup_cons in Hnd as [Ha Hnd].
  apply elem_of_cons in Hp as [->|Hp].
  - rewrite filter_cons_True by done. f_equal. by apply filtra_rotulo_ausente.
  - rewrite filter_cons_False; [auto|].
    intros Heq. apply Ha. rewrite Heq. by apply list_elem_of_fmap_2.
Qed.

Lemma seleciona_prefixo (l : list (string * list valor)) (ps : list (string * list valor)) :
  NoDup (l.*1) -> (forall p, p ∈ ps -> p ∈ l) ->
  (ps.*1 ≫= fun r => filter (fun q => q.1 = r) l) = ps.
Proof.
  intros Hnd. induction ps as [|p ps IH]; intros Hin; [done|].
  rewrite fmap_cons. cbn [mbind list_bind]. 
  rewrite filtra_rotulo_unico by (done || apply Hin; left).
  simpl. f_equal. apply IH. intros q Hq. apply Hin. by right.
Qed.

Lemma filtra_ext_em {A} (P Q : A -> Prop) `{!forall x, Decision (P x)}
    `{!forall x, Decision (Q x)} (l : list A) :
  (forall x, x ∈ l -> P x <-> Q x) -> filter P l = filter Q l.
Proof.
  induction l as [|a l IH]; intros Hext; [done|].
  assert (Hl : filter P l = filter Q l).
  { apply IH. intros x Hx. apply Hext. by right. }
  destruct (decide (P a)) as [Hp|Hp].
  - rewrite !filter_cons_True; [by f_equal| |done]. apply Hext; [left|done].
  - rewrite !filter_cons_False; [done| |done]. intros Hq. apply Hp, Hext; [left|done].
Qed.

Lemma filtra_tudo {A} (P : A -> Prop) `{!forall x, Decision (P x)} (l : list A) :
  (forall x, x ∈ l -> P x) -> filter P l = l.
Proof.
  induction l as [|a l IH]; intros Hall; [done|].
  rewrite filter_cons_True by (apply Hall; left). f_equal. apply IH.
  intros x Hx. apply Hall. by right.
Qed.

Lemma descarta_prefixo (l : list (string * list valor)) : forall k,
  NoDup (l.*1) -> filter (fun q => q.1 ∉ take k l.*1) l = drop k l.
Proof.
  induction l as [|a l IH]; intros k Hnd; [by destruct k|].
  rewrite fmap_cons in Hnd. apply NoDup_cons in Hnd as [Ha Hnd].
  destruct k as [|k].
  - rewrite drop_0. apply filtra_tudo. intros x _. simpl. apply not_elem_of_nil.
  - rewrite fmap_cons. simpl take. simpl drop.
    rewrite filter_cons_False by (intros H; apply H; left).
    rewrite <- (IH k Hnd). apply filtra_ext_em. intros q Hq.
    rewrite not_elem_of_cons. split; [by intros [_ ?]|]. intros H. split; [|done].
    intros Heq. apply Ha. rewrite <- Heq. by apply list_elem_of_fmap_2.
Qed.

Lemma rotulos_presentes (d : DataFrame) (k : nat) :
  List.find (fun r => negb (bool_decide (r ∈ columns d))) (take k (columns d)) = None.
Proof.
  apply find_nenhum. intros x Hx. apply negb_false_iff, bool_decide_eq_true.
  by apply elem_of_take in Hx as (i & Hx%list_elem_of_lookup_2 & _).
Qed.

Lemma colunas_rotuladas_fst d : regular d -> (colunas_rotuladas d).*1 = columns d.
Proof. intros [_ H]. apply fst_zip. lia. Qed.

Lemma colunas_rotuladas_snd d : regular d -> (colunas_rotuladas d).*2 = dados d.
Proof. intros [_ H]. apply snd_zip. lia. Qed.

(** [df[df.columns[0:k]]] keeps the first [k] columns. *)
Lemma getitem_prefixo d k :
  regular d ->
  getitem d (fatia 0 k (columns d))
  = inr (mkDataFrame (take k (columns d)) (index d) (take k (dados d))).
Proof.
  intros Hreg. unfold getitem, fatia. rewrite Nat.sub_0_r, drop_0, rotulos_presentes.
  f_equal. unfold de_colunas.
  assert (Hsel : (take k (columns d) ≫= fun r =>
                    filter (fun p => p.1 = r) (colunas_rotuladas d))
                 = take k (colunas_rotuladas d)).
  { rewrite <- (colunas_rotuladas_fst d Hreg) at 1.
    rewrite <- fmap_take. apply seleciona_prefixo.
    - rewrite colunas_rotuladas_fst by done. apply Hreg.
    - intros p Hp. by apply elem_of_take in Hp as (i & Hp%list_elem_of_lookup_2 & _). }
  by rewrite Hsel, !fmap_take, colunas_rotuladas_fst, colunas_rotuladas_snd.
Qed.

(** [df.drop(columns=df.columns[0:k])] drops the first [k] columns. *)
Lemma drop_columns_prefixo d k :
  regular d ->
  drop_columns d (fatia 0 k (columns d))
  = inr (mkDataFrame (drop k (columns d)) (index d) (drop k (dados d))).
Proof.
  intros Hreg. unfold drop_columns, fatia. rewrite Nat.sub_0_r, drop_0, rotulos_presentes.
  f_equal. unfold de_colunas.
  assert (Hsel : filter (fun p => p.1 ∉ take k (columns d)) (colunas_rotuladas d)
                 = drop k (colunas_rotuladas d)).
  { rewrite <- (descarta_prefixo _ k)
      by (rewrite colunas_rotuladas_fst by done; apply Hreg).
    apply filtra_ext_em. intros q _. by rewrite colunas_rotuladas_fst. }
  by rewrite Hsel, !fmap_drop, colunas_rotuladas_fst, colunas_rotuladas_snd.
Qed.

(** ** The importers on a table that was read *)

Lemma set_columns_ok d nomes :
  length nomes = n_colunas d ->
  set_columns d nomes = inr (mkDataFrame nomes (index d) (dados d)).
Proof. intros H. unfold set_columns. by rewrite bool_decide_eq_true_2. Qed.

Lemma set_columns_erro d nomes :
  length nomes <> n_colunas d ->
  set_columns d nomes = inl (ValueError (msg_tamanho (n_colunas d) (length nomes))).
Proof. intros H. unfold set_columns. by rewrite bool_decide_eq_false_2. Qed.

Lemma importar_csv_osciloscopio_lido fs arquivo st d0 :
  le_csv fs arquivo ";" "," = inr d0 ->
  importar_csv_osciloscopio fs arquivo st =
  if bool_decide (n_colunas d0 = 5)
  then (Retorna (length (objetos st) + 2),
        mkEstado (objetos st ++
                    [d0;
                     mkDataFrame ["parametro"; "valor"]
                       (index (dropna (infos_de d0))) (dados (dropna (infos_de d0)));
                     mkDataFrame ["tempo"; "tensao"] (index d0) (drop 3 (dados d0))])
                 (stdout st) (figura st))
  else falha (ValueError (msg_tamanho (n_colunas d0 - 3) 2)) [d0; infos_de d0; sem_tres d0] st.
Proof.
  intros Hle. pose proof (le_csv_regular _ _ _ _ _ Hle) as Hreg.
  rewrite importar_csv_osciloscopio_passos, Hle.
  rewrite getitem_prefixo, drop_columns_prefixo by done.
  fold (infos_de d0). fold (sem_tres d0).
  assert (Hn : n_colunas (sem_tres d0) = n_colunas d0 - 3).
  { unfold n_colunas. simpl. by rewrite length_drop. }
  case_bool_decide as H5.
  - rewrite set_columns_ok by (rewrite Hn, H5; done).
    rewrite set_columns_ok; [done|].
    unfold n_colunas in *. simpl. rewrite length_take. lia.
  - rewrite set_columns_erro by (rewrite Hn; simpl; lia).
    by rewrite Hn.
Qed.

Lemma importar_csv_osciloscopio_sem_infos_lido fs arquivo st d0 :
  le_csv fs arquivo ";" "," = inr d0 ->
  importar_csv_osciloscopio_sem_infos fs arquivo st =
  if bool_decide (n_colunas d0 = 5)
  then (Retorna (length (objetos st) + 1),
        mkEstado (objetos st ++
                    [d0; mkDataFrame ["tempo"; "tensao"] (index d0) (drop 3 (dados d0))])
                 (stdout st) (figura st))
  else falha (ValueError (msg_tamanho (n_colunas d0 - 3) 2)) [d0; sem_tres d0] st.
Proof.
  intros Hle. pose proof (le_csv_regular _ _ _ _ _ Hle) as Hreg.
  rewrite importar_csv_osciloscopio_sem_infos_passos, Hle.
  rewrite drop_columns_prefixo by done. fold (sem_tres d0).
  assert (Hn : n_colunas (sem_tres d0) = n_colunas d0 - 3).
  { unfold n_colunas. simpl. by rewrite length_drop. }
  case_bool_decide as H5.
  - by rewrite set_columns_ok by (rewrite Hn, H5; done).
  - rewrite set_columns_erro by (rewrite Hn; simpl; lia). by rewrite Hn.
Qed.

Lemma importar_csv_simulador_lido fs arquivo st d0 :
  le_csv fs arquivo TAB "," = inr d0 ->
  importar_csv_simulador fs arquivo st =
  if bool_decide (n_colunas d0 = 2)
  then (Retorna (length (objetos st)),
        mkEstado (objetos st ++ [mkDataFrame ["tempo"; "tensao"] (index d0) (dados d0)])
                 (stdout st) (figura st))
  else falha (ValueError (msg_tamanho (n_colunas d0) 2)) [d0] st.
Proof.
  intros Hle. rewrite importar_csv_simulador_passos, Hle.
  case_bool_decide as H2.
  - by rewrite set_columns_ok by (rewrite H2; done).
  - rewrite set_columns_erro by (simpl; lia). done.
Qed.

(** What is seen of a fallback: the empty table and one more line. *)
Lemma falha_tabela e extra st :
  objetos (falha e extra st).2 !! (length (objetos st) + length extra) = Some DataFrame_vazio.
Proof. unfold falha. simpl. rewrite lookup_apos. by rewrite lookup_apos0. Qed.

Lemma tabela_devolvida_falha m st e extra :
  m st = falha e extra st ->
  tabela_devolvida m st = Some DataFrame_vazio
  /\ saida m st
     = stdout st +:+ ("Erro ao importar o arquivo: " +:+ str_excecao e) +:+ String LF EmptyString.
Proof.
  intros H. unfold tabela_devolvida, saida. rewrite H. split; [|done].
  apply falha_tabela.
Qed.

(** ** Well-formed files *)

Lemma bem_formado_spec sep n conteudo :
  bem_formado sep n conteudo = true ->
  tokeniza sep conteudo <> []
  /\ length (cabecalho sep conteudo) = n
  /\ Forall (fun r => length r = n) (registros sep conteudo).
Proof.
  unfold bem_formado, cabecalho, registros.
  destruct (tokeniza sep conteudo) as [|c rs]; [done|].
  intros [Hc Hrs]%andb_true_iff. apply Nat.eqb_eq in Hc.
  split; [done|]. split; [done|].
  apply Forall_fmap, Forall_forall. intros p Hp%list_elem_of_In.
  rewrite forallb_forall in Hrs. by apply Nat.eqb_eq, Hrs.
Qed.

Lemma abre_arquivo fs arquivo c : fs !! arquivo = Some (Arquivo c) -> abre fs arquivo = inr c.
Proof. intros H. unfold abre. by rewrite H. Qed.

Lemma le_csv_bem_formado fs arquivo sep decimal n c :
  fs !! arquivo = Some (Arquivo c) ->
  bem_formado sep n c = true ->
  le_csv fs arquivo sep decimal = inr (tabela_lida sep decimal c)
  /\ n_colunas (tabela_lida sep decimal c) = n.
Proof.
  intros Hfs (Hne & Hn & Hrs)%bem_formado_spec.
  unfold le_csv. rewrite (abre_arquivo _ _ _ Hfs). split.
  - apply analisa_csv_retangular; [done|].
    eapply Forall_impl; [exact Hrs|]. simpl. lia.
  - by rewrite tabela_lida_colunas.
Qed.

(** The oscilloscope importer on a well-formed file of [n] columns. *)
Lemma osciloscopio_bem_formado fs arquivo c n st :
  fs !! arquivo = Some (Arquivo c) ->
  bem_formado ";" n c = true ->
  if bool_decide (n = 5)
  then tabela_devolvida (importar_csv_osciloscopio fs arquivo) st
       = Some (mkDataFrame ["tempo"; "tensao"]
                 (index (tabela_lida ";" "," c)) (drop 3 (dados (tabela_lida ";" "," c))))
       /\ saida (importar_csv_osciloscopio fs arquivo) st = stdout st
  else tabela_devolvida (importar_csv_osciloscopio fs arquivo) st = Some DataFrame_vazio
       /\ saida (importar_csv_osciloscopio fs arquivo) st
          = stdout st
              +:+ ("Erro ao importar o arquivo: " +:+ msg_tamanho (n - 3) 2)
              +:+ String LF EmptyString.
Proof.
  intros Hfs Hbf.
  destruct (le_csv_bem_formado _ _ ";" ","%char _ _ Hfs Hbf) as [Hle Hn].
  pose proof (importar_csv_osciloscopio_lido fs arquivo st _ Hle) as Himp.
  rewrite Hn in Himp. case_bool_decide as H5.
  - unfold tabela_devolvida, saida. rewrite Himp. simpl. split; [|done].
    by rewrite lookup_apos.
  - by apply tabela_devolvida_falha in Himp.
Qed.


(** ** The end-to-end scenario *)

(** C1, as stated, fails: on the four-column file the importer does not return
    a table of one row with time 0.0 and voltage 0.5 (it returns the empty
    table). *)
Lemma cenario_quatro_colunas_sem_linha :
  ~ exists d,
      tabela_devolvida
        (importar_csv_osciloscopio {[ "osc.csv" := Arquivo arquivo_quatro_colunas ]} "osc.csv")
        estado_inicial = Some d
      /\ uma_linha_0_05 d.
Proof.
  intros (d & Hd & t & v & H & _). vm_compute in Hd. injection Hd as <-.
  vm_compute in H. discriminate.
Qed.

(** C1, amended: on the four-column file of the scenario, three columns are
    dropped, renaming the single column left to two names fails, and the
    importer prints the diagnostic and returns the empty table; on the file
    with the same rows and five columns it returns one row with time 0.0 and
    voltage 0.5 under the labels [tempo] and [tensao]. *)
Theorem cenario_osciloscopio fs quatro cinco st :
  fs !! quatro = Some (Arquivo arquivo_quatro_colunas) ->
  fs !! cinco = Some (Arquivo arquivo_cinco_colunas) ->
  (tabela_devolvida (importar_csv_osciloscopio fs quatro) st = Some DataFrame_vazio
   /\ shape DataFrame_vazio = (0, 0)
   /\ saida (importar_csv_osciloscopio fs quatro) st
      = stdout st
          +:+ "Erro ao importar o arquivo: Length mismatch: Expected axis has 1 elements, new values have 2 elements"
          +:+ String LF EmptyString)
  /\ (exists d,
        tabela_devolvida (importar_csv_osciloscopio fs cinco) st = Some d
        /\ columns d = ["tempo"; "tensao"]
        /\ uma_linha_0_05 d
        /\ saida (importar_csv_osciloscopio fs cinco) st = stdout st).
Proof.
  intros H4 H5. split.
  - pose proof (osciloscopio_bem_formado fs quatro _ 4 st H4 eq_refl) as [Ht Hs].
    split; [exact Ht|]. split; [done|]. exact Hs.
  - pose proof (osciloscopio_bem_formado fs cinco _ 5 st H5 eq_refl) as [Ht Hs].
    eexists. split; [exact Ht|]. split; [done|]. split; [|exact Hs].
    exists (0 # 10), (5 # 10). split; [by vm_compute|]. split; reflexivity.
Qed.

Lemma cenario_osciloscopio_witness :
  tabela_devolvida (importar_csv_osciloscopio fs_cenario "osc4.csv") estado_inicial
  = Some DataFrame_vazio
  /\ exists d,
       tabela_devolvida (importar_csv_osciloscopio fs_cenario "osc5.csv") estado_inicial
       = Some d
       /\ uma_linha_0_05 d.
Proof.
  destruct (cenario_osciloscopio fs_cenario "osc4.csv" "osc5.csv" estado_inicial)
    as [(H4 & _) (d & Hd & _ & Hl & _)]; [reflexivity|reflexivity|].
  split; [exact H4|]. exists d. split; [exact Hd|exact Hl].
Defined.

(** ** Columns and rows of what the importers return *)








(** ** Rows in file order *)




Lemma append_vazio_r (s t : string) : s +:+ t = s -> t = EmptyString.
Proof. induction s as [|a s IH]; simpl; [done|]. intros [= H]. auto. Qed.

Lemma falha_escreve e extra st : stdout (falha e extra st).2 <> stdout st.
Proof.
  unfold falha. simpl. intros H%append_vazio_r. discriminate.
Qed.



(** ** The simulator importer *)




(** ** Paths that name no readable file *)

Lemma caracteres_append (a b : string) : caracteres (a +:+ b) = caracteres a ++ caracteres b.
Proof. induction a as [|c a IH]; simpl; [done|]. by rewrite IH. Qed.

Lemma hex_digito_nao_LF n : hex_digito n <> LF.
Proof.
  unfold hex_digito. generalize (N.to_nat n). intros k.
  do 17 (destruct k as [|k]; [done|]). done.
Qed.

Ltac sem_LF :=
  simpl;
  repeat (apply not_elem_of_cons; split;
          [first [done | apply not_eq_sym, hex_digito_nao_LF | congruence]|]);
  apply not_elem_of_nil.

Lemma repr_char_sem_LF q c : q <> LF -> LF ∉ caracteres (repr_char q c).
Proof.
  intros Hq. unfold repr_char. cbv zeta.
  destruct (Ascii.eqb_spec c BARRA); [sem_LF|].
  destruct (Ascii.eqb_spec c q); [sem_LF|].
  destruct (Ascii.eqb_spec c LF); [sem_LF|].
  destruct (Ascii.eqb_spec c CR); [sem_LF|].
  destruct (Ascii.eqb_spec c TAB); [sem_LF|].
  destruct (_ || _); sem_LF.
Qed.

Lemma repr_corpo_sem_LF q s : q <> LF -> LF ∉ caracteres (repr_corpo q s).
Proof.
  intros Hq. induction s as [|c s IH]; simpl; [apply not_elem_of_nil|].
  rewrite caracteres_append. apply not_elem_of_app. split; [by apply repr_char_sem_LF|done].
Qed.

Lemma repr_sem_LF s : LF ∉ caracteres (repr s).
Proof.
  unfold repr. cbv zeta.
  destruct (bool_decide _ && negb _); simpl;
    (apply not_elem_of_cons; split; [done|]);
    rewrite caracteres_append; (apply not_elem_of_app; split;
                                [by apply repr_corpo_sem_LF|]); sem_LF.
Qed.

Lemma sem_LF_dec (l : list ascii) : bool_decide (LF ∈ l) = false -> LF ∉ l.
Proof. apply bool_decide_eq_false. Qed.

Lemma le_csv_ilegivel fs arquivo sep decimal :
  legivel fs arquivo = false ->
  exists e, le_csv fs arquivo sep decimal = inl e
            /\ (e = FileNotFoundError arquivo \/ e = IsADirectoryError arquivo
                \/ e = PermissionError arquivo).
Proof.
  unfold legivel, le_csv, abre. destruct (fs !! arquivo) as [[c| |]|]; [done|..]; eauto.
Qed.

Lemma importa_falha_leitura imp fs arquivo st e :
  le_csv fs arquivo (separador imp) "," = inl e ->
  importa imp fs arquivo st = falha e [] st.
Proof.
  destruct imp; simpl; intros H.
  - by rewrite importar_csv_osciloscopio_passos, H.
  - by rewrite importar_csv_simulador_passos, H.
Qed.

(** No exception leaves an importer. *)
Lemma importa_retorna imp fs arquivo st :
  exists r st', importa imp fs arquivo st = (Retorna r, st').
Proof.
  destruct imp; simpl.
  - rewrite importar_csv_osciloscopio_passos. unfold falha.
    repeat match goal with
           | |- context [match ?x with inl _ => _ | inr _ => _ end] => destruct x
           end; eauto.
  - rewrite importar_csv_simulador_passos. unfold falha.
    repeat match goal with
           | |- context [match ?x with inl _ => _ | inr _ => _ end] => destruct x
           end; eauto.
Qed.

(** C5: whatever the input, an importer returns normally; and for a path that
    names no readable file (nothing, a directory, a file without permission)
    it returns the empty table, of zero rows and zero columns, and writes
    exactly one line to the standard output. *)
Theorem importadores_caminho_ilegivel imp fs arquivo st :
  (exists r st', importa imp fs arquivo st = (Retorna r, st'))
  /\ (legivel fs arquivo = false ->
      exists diagnostico,
        tabela_devolvida (importa imp fs arquivo) st = Some DataFrame_vazio
        /\ shape DataFrame_vazio = (0, 0)
        /\ saida (importa imp fs arquivo) st
           = stdout st +:+ diagnostico +:+ String LF EmptyString
        /\ LF ∉ caracteres diagnostico).
Proof.
  split; [apply importa_retorna|]. intros Hl.
  destruct (le_csv_ilegivel fs arquivo (separador imp) ","%char Hl) as (e & He & Hcaso).
  pose proof (importa_falha_leitura imp fs arquivo st e He) as Hf.
  apply tabela_devolvida_falha in Hf as [Ht Hs].
  exists ("Erro ao importar o arquivo: " +:+ str_excecao e).
  split; [exact Ht|]. split; [done|]. split; [exact Hs|].
  rewrite caracteres_append. apply not_elem_of_app. split.
  - apply sem_LF_dec. reflexivity.
  - destruct Hcaso as [->|[->| ->]]; unfold str_excecao; rewrite caracteres_append;
      (apply not_elem_of_app; split; [|apply repr_sem_LF]);
      apply sem_LF_dec; reflexivity.
Qed.

Lemma importadores_caminho_ilegivel_witness :
  tabela_devolvida (importar_csv_simulador fs_simulador "V2.txt") estado_inicial
  = Some DataFrame_vazio
  /\ exists diagnostico,
       saida (importar_csv_simulador fs_simulador "V2.txt") estado_inicial
       = diagnostico +:+ String LF EmptyString
       /\ LF ∉ caracteres diagnostico.
Proof.
  destruct (importadores_caminho_ilegivel Simulador fs_simulador "V2.txt" estado_inicial)
    as [_ H].
  destruct (H eq_refl) as (diag & Ht & _ & Hs & Hn).
  split; [exact Ht|]. exists diag. split; [exact Hs|exact Hn].
Defined.

(** ** The dead computation of [infos] *)

(** C7: the lines that build [infos] never change what the oscilloscope
    importer returns: for every file system, path and state, the table
    returned (and the text written) is that of the importer without them. *)
Theorem infos_nao_afeta_resultado fs arquivo st :
  tabela_devolvida (importar_csv_osciloscopio fs arquivo) st
  = tabela_devolvida (importar_csv_osciloscopio_sem_infos fs arquivo) st
  /\ saida (importar_csv_osciloscopio fs arquivo) st
     = saida (importar_csv_osciloscopio_sem_infos fs arquivo) st
  /\ is_Some (tabela_devolvida (importar_csv_osciloscopio fs arquivo) st).
Proof.
  destruct (le_csv fs arquivo ";" ",") as [e|d0] eqn:Hle.
  - pose proof (importar_csv_osciloscopio_passos fs arquivo st) as H1.
    pose proof (importar_csv_osciloscopio_sem_infos_passos fs arquivo st) as H2.
    rewrite Hle in H1, H2.
    apply tabela_devolvida_falha in H1 as [-> ->].
    apply tabela_devolvida_falha in H2 as [-> ->]. eauto.
  - pose proof (importar_csv_osciloscopio_lido fs arquivo st d0 Hle) as H1.
    pose proof (importar_csv_osciloscopio_sem_infos_lido fs arquivo st d0 Hle) as H2.
    case_bool_decide as H5.
    + unfold tabela_devolvida, saida. rewrite H1, H2. simpl.
      rewrite !lookup_apos. simpl. eauto.
    + apply tabela_devolvida_falha in H1 as [-> ->].
      apply tabela_devolvida_falha in H2 as [-> ->]. eauto.
Qed.

(** ** The driver on a failed import *)

Lemma importa_casos imp fs arquivo :
  (exists e extra, forall st, importa imp fs arquivo st = falha e extra st)
  \/ (exists antes idx xs ys, forall st,
        importa imp fs arquivo st
        = (Retorna (length (objetos st) + length antes),
           mkEstado (objetos st ++ antes ++ [mkDataFrame ["tempo"; "tensao"] idx [xs; ys]])
                    (stdout st) (figura st))).
Proof.
  destruct (le_csv fs arquivo (separador imp) ",") as [e|d0] eqn:Hle.
  { left. exists e, []. intros st. by apply importa_falha_leitura. }
  pose proof (le_csv_regular _ _ _ _ _ Hle) as [_ Hlen].
  destruct imp; simpl in Hle.
  - destruct (decide (n_colunas d0 = 5)) as [H5|H5].
    + right. unfold n_colunas in H5. rewrite H5 in Hlen.
      destruct (dados d0) as [|c0 [|c1 [|c2 [|xs [|ys [|]]]]]] eqn:Hd; try done.
      eexists [d0; _], (index d0), xs, ys. intros st. simpl.
      rewrite (importar_csv_osciloscopio_lido _ _ _ _ Hle).
      rewrite bool_decide_eq_true_2 by done. rewrite Hd. reflexivity.
    + left. eexists _, _. intros st. simpl.
      rewrite (importar_csv_osciloscopio_lido _ _ _ _ Hle).
      by rewrite bool_decide_eq_false_2 by done.
  - destruct (decide (n_colunas d0 = 2)) as [H2|H2].
    + right. unfold n_colunas in H2. rewrite H2 in Hlen.
      destruct (dados d0) as [|xs [|ys [|]]] eqn:Hd; try done.
      exists [], (index d0), xs, ys. intros st. simpl.
      rewrite (importar_csv_simulador_lido _ _ _ _ Hle).
      rewrite bool_decide_eq_true_2 by done. rewrite Hd, Nat.add_0_r. reflexivity.
    + left. eexists _, _. intros st. simpl.
      rewrite (importar_csv_simulador_lido _ _ _ _ Hle).
      by rewrite bool_decide_eq_false_2 by done.
Qed.






(** ** The analytical curve of channel 1 *)

Lemma exp_oposto_menor_inverso (x : R) : (0 < x)%R -> (exp (- x) < / x)%R.
Proof.
  intros Hx. rewrite exp_Ropp. apply Rinv_lt_contravar.
  - apply Rmult_lt_0_compat; [exact Hx|apply exp_pos].
  - assert (Hne : x <> 0%R) by lra. pose proof (exp_ineq1 x Hne). lra.
Qed.

Lemma np_arange_ponto (k : nat) :
  k < 200 ->
  np_arange 0 2 0.01 !! k = Some (IZR (Z.of_nat k) * 0.01)%R.
Proof.
  intros Hk. unfold np_arange.
  change (Z.to_nat (Qceiling ((2 - 0) / 0.01))) with 200.
  rewrite list_lookup_fmap, lookup_seq_lt by done. simpl. f_equal.
  rewrite Q2R_plus, Q2R_mult. unfold Q2R. simpl. lra.
Qed.




(** ** Decimal commas *)

























(** The same cell in the fourth column of an oscilloscope file. *)
Example osciloscopio_1_23 :
  tabela_devolvida
    (importar_csv_osciloscopio
       {[ "osc.csv" :=
            Arquivo ("a;b;c;t;v" +:+ String LF ("1,0;x,0;y;1,23;0,5" +:+ String LF EmptyString)) ]}
       "osc.csv")
    estado_inicial
  = Some (mkDataFrame ["tempo"; "tensao"] [0] [[VFloat (123 # 100)]; [VFloat (5 # 10)]]).
Proof. reflexivity. Qed.

(** * Further properties of the importers and of the driver *)

(** ** Every run of an importer *)

Lemma importa_casos_tabela imp fs arquivo :
  (exists e extra, forall st, importa imp fs arquivo st = falha e extra st)
  \/ (exists antes d,
        columns d = ["tempo"; "tensao"] /\ length (dados d) = 2
        /\ forall st,
            importa imp fs arquivo st
            = (Retorna (length (objetos st) + length antes),
               mkEstado (objetos st ++ antes ++ [d]) (stdout st) (figura st))).
Proof.
  destruct (importa_casos imp fs arquivo)
    as [H|(antes & idx & xs & ys & H)]; [by left|right].
  by exists antes, (mkDataFrame ["tempo"; "tensao"] idx [xs; ys]).
Qed.


(** An importer draws nothing, leaves every table that existed before the
    call as it was, and returns a reference to an object it made itself. *)
Theorem importa_preserva_estado imp fs arquivo st :
  exists r st',
    importa imp fs arquivo st = (Retorna r, st')
    /\ figura st' = figura st
    /\ objetos st `prefix_of` objetos st'
    /\ (forall k d, objetos st !! k = Some d -> objetos st' !! k = Some d)
    /\ length (objetos st) <= r < length (objetos st').
Proof.
  assert (Hpre : forall novos k d,
             objetos st !! k = Some d -> (objetos st ++ novos) !! k = Some d).
  { intros novos k d Hk. by apply lookup_app_l_Some. }
  destruct (importa_casos_tabela imp fs arquivo)
    as [(e & extra & H)|(antes & d & _ & _ & H)]; rewrite H; unfold falha;
    eexists _, _; (split; [reflexivity|]); simpl;
    (split; [done|]); (split; [by apply prefix_app_r|]); (split; [by apply Hpre|]);
    rewrite !length_app; simpl; lia.
Qed.

(** ** Column counts, empty files, files without the separator *)



Lemma tokeniza_vazio sep c :
  forallb (linha_em_branco sep) (quebra_linhas c) = true -> tokeniza sep c = [].
Proof.
  intros Hb. unfold tokeniza.
  replace (filter _ _) with (@nil (nat * string)); [done|].
  symmetry. apply elem_of_nil_inv. intros [k l] [Hp Hin]%list_elem_of_filter.
  apply elem_of_zip_r, list_elem_of_In in Hin. simpl in Hp.
  rewrite forallb_forall in Hb. rewrite (Hb _ Hin) in Hp. discriminate.
Qed.

(** A file without content (no line, or only blank lines) makes both
    importers fall back: [read_csv] finds no header, and the diagnostic says
    that there are no columns to parse. *)
Theorem importa_arquivo_em_branco imp fs arquivo c st :
  fs !! arquivo = Some (Arquivo c) ->
  forallb (linha_em_branco (separador imp)) (quebra_linhas c) = true ->
  tabela_devolvida (importa imp fs arquivo) st = Some DataFrame_vazio
  /\ saida (importa imp fs arquivo) st
     = stdout st +:+ "Erro ao importar o arquivo: No columns to parse from file"
         +:+ String LF EmptyString.
Proof.
  intros Hfs Hb.
  assert (Hle : le_csv fs arquivo (separador imp) "," = inl EmptyDataError).
  { unfold le_csv. rewrite (abre_arquivo _ _ _ Hfs). unfold analisa_csv.
    by rewrite (tokeniza_vazio _ _ Hb). }
  pose proof (importa_falha_leitura imp fs arquivo st _ Hle) as Hf.
  by apply tabela_devolvida_falha in Hf.
Qed.

Lemma importa_arquivo_em_branco_witness :
  tabela_devolvida
    (importar_csv_simulador {[ "V1.txt" := Arquivo (String LF (String LF EmptyString)) ]} "V1.txt")
    estado_inicial
  = Some DataFrame_vazio.
Proof.
  apply (importa_arquivo_em_branco Simulador
           {[ "V1.txt" := Arquivo (String LF (String LF EmptyString)) ]} "V1.txt"
           (String LF (String LF EmptyString)) estado_inicial); reflexivity.
Defined.









(** ** The columns that the oscilloscope importer drops *)



(** ** Every run of the driver *)











(** ** Missing values *)





(** ** The grid and the analytical curves *)

Lemma np_arange_length : length (np_arange 0 2 0.01) = 200.
Proof. unfold np_arange. by rewrite length_fmap, length_seq. Qed.

Lemma np_arange_elemento (x : R) :
  x ∈ np_arange 0 2 0.01 -> exists k, k < 200 /\ x = (IZR (Z.of_nat k) * 0.01)%R.
Proof.
  intros (k & Hk)%list_elem_of_lookup. exists k.
  assert (Hlt : k < 200).
  { rewrite <- np_arange_length. by apply lookup_lt_Some in Hk. }
  split; [exact Hlt|]. rewrite np_arange_ponto in Hk by done. by injection Hk.
Qed.

Lemma IZR_indice (k : nat) : k < 200 -> (0 <= IZR (Z.of_nat k) <= 199)%R.
Proof. intros Hk. split; apply IZR_le; lia. Qed.



Lemma exp_decrescente (a t1 t2 : R) :
  (0 < a)%R -> (t1 < t2)%R -> (exp (- t2 * a) < exp (- t1 * a))%R.
Proof. intros Ha Ht. apply exp_increasing. nra. Qed.

Lemma exp_ate_um (a t : R) : (0 < a)%R -> (0 <= t)%R -> (exp (- t * a) <= 1)%R.
Proof.
  intros Ha Ht. rewrite <- exp_0.
  destruct (Req_dec t 0) as [->|Hne].
  - replace (- 0 * a)%R with 0%R by lra. lra.
  - left. apply exp_increasing. nra.
Qed.

(** The curve of channel 1 grows strictly with time and stays below 1; from
    time 0 on it is at least 0.0007, so every point that [main] draws of it
    lies between 0.0007 and 1. *)
Theorem tensao_v1_crescente_e_limitada :
  (forall t1 t2 : R, t1 < t2 -> tensao_v1 t1 < tensao_v1 t2)%R
  /\ (forall t : R, tensao_v1 t < 1)%R
  /\ (forall t : R, 0 <= t -> 0.0007 <= tensao_v1 t)%R
  /\ (forall y : R, y ∈ tensao_v1 <$> np_arange 0 2 0.01 -> (0.0007 <= y < 1)%R).
Proof.
  assert (Hm : forall t1 t2 : R, (t1 < t2 -> tensao_v1 t1 < tensao_v1 t2)%R).
  { intros t1 t2 Ht. unfold tensao_v1.
    pose proof (exp_decrescente 4.51 t1 t2 ltac:(lra) Ht).
    pose proof (exp_decrescente 10.08 t1 t2 ltac:(lra) Ht). lra. }
  assert (Hs : forall t : R, (tensao_v1 t < 1)%R).
  { intros t. unfold tensao_v1.
    pose proof (exp_pos (- t * 4.51)). pose proof (exp_pos (- t * 10.08)). lra. }
  assert (Hi : forall t : R, (0 <= t -> 0.0007 <= tensao_v1 t)%R).
  { intros t Ht. unfold tensao_v1.
    pose proof (exp_ate_um 4.51 t ltac:(lra) Ht).
    pose proof (exp_ate_um 10.08 t ltac:(lra) Ht). lra. }
  split; [exact Hm|]. split; [exact Hs|]. split; [exact Hi|].
  intros y (x & -> & Hx)%list_elem_of_fmap.
  apply np_arange_elemento in Hx as (k & Hk & ->).
  pose proof (IZR_indice k Hk). split; [apply Hi; lra|apply Hs].
Qed.

Lemma tensao_v1_crescente_e_limitada_witness : (tensao_v1 0 < tensao_v1 1)%R.
Proof.
  destruct tensao_v1_crescente_e_limitada as (H & _). apply H. lra.
Defined.

(** The curve of channel 2 is 0 at time 0, positive afterwards, below
    0.8159 from time 0 on, and tends to 0; every point that [main] draws of
    it lies between 0 and 0.8159. *)
Theorem tensao_v2_positiva_e_limitada :
  (tensao_v2 0 = 0)%R
  /\ (forall t : R, 0 < t -> 0 < tensao_v2 t)%R
  /\ (forall t : R, 0 <= t -> tensao_v2 t < 0.8159)%R
  /\ (forall eps : R, 0 < eps ->
        exists T : R, forall t : R, T < t -> Rabs (tensao_v2 t) < eps)%R
  /\ (forall y : R, y ∈ tensao_v2 <$> np_arange 0 2 0.01 -> (0 <= y < 0.8159)%R).
Proof.
  assert (H0 : (tensao_v2 0 = 0)%R).
  { unfold tensao_v2. replace (- 0 * 4.51)%R with 0%R by lra.
    replace (- 0 * 10.08)%R with 0%R by lra. lra. }
  assert (Hp : forall t : R, (0 < t -> 0 < tensao_v2 t)%R).
  { intros t Ht. unfold tensao_v2.
    assert (exp (- t * 10.08) < exp (- t * 4.51))%R by (apply exp_increasing; lra).
    lra. }
  assert (Hs : forall t : R, (0 <= t -> tensao_v2 t < 0.8159)%R).
  { intros t Ht. unfold tensao_v2.
    pose proof (exp_ate_um 4.51 t ltac:(lra) Ht).
    pose proof (exp_pos (- t * 10.08)). lra. }
  split; [exact H0|]. split; [exact Hp|]. split; [exact Hs|]. split.
  - intros eps Heps. exists (/ eps)%R. intros t Ht.
    assert (Hinv : (0 < / eps)%R) by (apply Rinv_0_lt_compat; exact Heps).
    assert (Htpos : (0 < t)%R) by lra.
    assert (Hu : (/ t < eps)%R).
    { rewrite <- (Rinv_inv eps). apply Rinv_lt_contravar; [|exact Ht].
      apply Rmult_lt_0_compat; lra. }
    assert (Hupos : (0 < / t)%R) by (apply Rinv_0_lt_compat; exact Htpos).
    pose proof (Hp t Htpos) as Hpos. revert Hpos. unfold tensao_v2.
    replace (- t * 4.51)%R with (- (4.51 * t))%R by lra.
    replace (- t * 10.08)%R with (- (10.08 * t))%R by lra.
    pose proof (exp_pos (- (10.08 * t))) as P2.
    assert (B1 : (exp (- (4.51 * t)) < / 4.51 * / t)%R).
    { rewrite <- Rinv_mult. apply exp_oposto_menor_inverso. lra. }
    intros Hpos. apply Rabs_def1; lra.
  - intros y (x & -> & Hx)%list_elem_of_fmap.
    apply np_arange_elemento in Hx as (k & Hk & ->).
    pose proof (IZR_indice k Hk) as [Hk0 _].
    split; [|apply Hs; lra].
    destruct (Req_dec (IZR (Z.of_nat k)) 0) as [E|E].
    + rewrite E. replace (0 * 0.01)%R with 0%R by lra. rewrite H0. lra.
    + left. apply Hp. lra.
Qed.

Lemma tensao_v2_positiva_e_limitada_witness : (0 < tensao_v2 1 < 0.8159)%R.
Proof.
  destruct tensao_v2_positiva_e_limitada as (_ & Hp & Hs & _).
  split; [apply Hp; lra|apply Hs; lra].
Defined.

(** ** The side table [infos] *)

Lemma elem_filtra_mascara {A} (m : list bool) (l : list A) (x : A) :
  x ∈ filtra_mascara m l -> exists i, m !! i = Some true /\ l !! i = Some x.
Proof.
  unfold filtra_mascara. intros ([b y] & -> & Hp)%list_elem_of_fmap.
  apply list_elem_of_filter in Hp as [Hb Hin]. simpl in Hb. subst b.
  apply list_elem_of_lookup in Hin as [i Hi]. exists i.
  by apply lookup_zip_Some in Hi.
Qed.

(** After [dropna], no column holds a missing value. *)
Lemma dropna_sem_NaN (d : DataFrame) (col : list valor) :
  col ∈ dados (dropna d) -> NaN ∉ col.
Proof.
  unfold dropna. simpl. intros (col0 & -> & Hcol)%list_elem_of_fmap Hin.
  apply elem_filtra_mascara in Hin as (i & Hm & Hi).
  rewrite list_lookup_fmap in Hm.
  destruct (seq 0 (n_linhas d) !! i) as [k|] eqn:Hk; [|done].
  apply lookup_seq in Hk as [-> _]. simpl in Hm. injection Hm as Hm.
  unfold linha_completa in Hm. rewrite forallb_forall in Hm.
  apply list_elem_of_In, Hm in Hcol. by rewrite Hi in Hcol.
Qed.

(** When the oscilloscope importer does not fall back, the object it made
    for [infos] (the one before the table it returns) carries the labels
    [parametro] and [valor], has two columns, and holds no missing value;
    the table returned is another object. *)
Theorem osciloscopio_infos_sem_ausentes fs arquivo st :
  saida (importar_csv_osciloscopio fs arquivo) st = stdout st ->
  exists r st' infos d,
    importar_csv_osciloscopio fs arquivo st = (Retorna r, st')
    /\ objetos st' !! r = Some d
    /\ objetos st' !! (r - 1) = Some infos
    /\ columns d = ["tempo"; "tensao"]
    /\ columns infos = ["parametro"; "valor"]
    /\ length (dados infos) = 2
    /\ (forall col, col ∈ dados infos -> NaN ∉ col).
Proof.
  unfold saida. intros Hs.
  destruct (le_csv fs arquivo ";" ",") as [e|d0] eqn:Hle.
  { rewrite importar_csv_osciloscopio_passos, Hle in Hs.
    exact (False_ind _ (falha_escreve _ _ _ Hs)). }
  pose proof (le_csv_regular _ _ _ _ _ Hle) as [_ Hlen].
  rewrite (importar_csv_osciloscopio_lido _ _ _ _ Hle) in Hs |- *.
  case_bool_decide as H5; [|exact (False_ind _ (falha_escreve _ _ _ Hs))].
  eexists _, _, _, _. split; [reflexivity|]. cbn [objetos].
  replace (length (objetos st) + 2 - 1) with (length (objetos st) + 1) by lia.
  rewrite !lookup_apos. simpl.
  split; [reflexivity|]. split; [reflexivity|]. split; [done|]. split; [done|]. split.
  - cbn [dados]. unfold n_colunas in H5. rewrite length_fmap, length_take. lia.
  - intros col Hcol. by apply (dropna_sem_NaN (infos_de d0)).
Qed.

Lemma osciloscopio_infos_sem_ausentes_witness :
  exists r st' infos,
    importar_csv_osciloscopio fs_cenario "osc5.csv" estado_inicial = (Retorna r, st')
    /\ objetos st' !! (r - 1) = Some infos
    /\ columns infos = ["parametro"; "valor"].
Proof.
  destruct (osciloscopio_infos_sem_ausentes fs_cenario "osc5.csv" estado_inicial eq_refl)
    as (r & st' & infos & d & Hr & _ & Hi & _ & Hc & _).
  exists r, st', infos. split; [exact Hr|]. split; [exact Hi|exact Hc].
Defined.
